(** * A shallow embedding of [bot.py] (AGAMA buy-alert bot)

    The script watches BNB Smart Chain blocks for native transfers to a
    token-sale contract and posts Telegram alerts; a self-rescheduling
    [threading.Timer] posts a periodic reminder.

    Modelling conventions:
    - Python exceptions are the inductive [exn]; fallible code returns [res].
    - Code that prints or calls an outside service runs in a writer/exception
      monad [M]: the list of [event]s it produced, and a normal result or a
      raised exception.
    - Python numbers ([int], [decimal.Decimal], [float]) are kept exact: a
      [float] is its binary value [mant * 2^exp], and comparisons between
      them are exact, as CPython compares mixed numeric types.
    - The outside world (RPC node, Telegram API, Bot constructor) is given
      as functions in an environment record. *)

From Stdlib Require Import ZArith List String Ascii Bool Lia.
Import ListNotations.
Open Scope Z_scope.

(** ** Exceptions and results *)

Inductive exn : Type :=
  | RuntimeError      (* asyncio.run() cannot be called from a running event loop *)
  | ValueError        (* e.g. web3's from_wei on an out-of-range amount *)
  | TelegramError     (* telegram.error.TelegramError: delivery failure *)
  | ConnectionError   (* network / RPC failure *)
  | OtherError.       (* any other [Exception] *)

Inductive res (A : Type) : Type :=
  | Ok (a : A)
  | Raise (e : exn).
Arguments Ok {A} a.
Arguments Raise {A} e.

(** ** Python numbers *)

Inductive pynum : Type :=
  | PyInt (z : Z)
  | PyDecimal (num den : Z)   (* exact value num / den, den > 0 *)
  | PyFloat (mant exp : Z).   (* exact binary value mant * 2^exp *)

(** Exact rational value as numerator and positive denominator. *)
Definition pynum_frac (x : pynum) : Z * Z :=
  match x with
  | PyInt z => (z, 1)
  | PyDecimal n d => (n, d)
  | PyFloat m e => if 0 <=? e then (m * 2 ^ e, 1) else (m, 2 ^ (- e))
  end.

(** [a >= b] across int, Decimal and float: CPython compares exactly. *)
Definition py_ge (a b : pynum) : bool :=
  let (n1, d1) := pynum_frac a in
  let (n2, d2) := pynum_frac b in
  n2 * d1 <=? n1 * d2.

(** ** Strings *)

(** [str.lower] on the ASCII range (chain addresses are ASCII hex). *)
Definition lower_char (c : ascii) : ascii :=
  let n := nat_of_ascii c in
  if (65 <=? n)%nat && (n <=? 90)%nat then ascii_of_nat (n + 32) else c.

Fixpoint lower (s : string) : string :=
  match s with
  | EmptyString => EmptyString
  | String c s' => String (lower_char c) (lower s')
  end.

(** Python truthiness of an optional string ([None] and [""] are falsy). *)
Definition truthy (s : option string) : bool :=
  match s with
  | None => false
  | Some v => negb (String.eqb v EmptyString)
  end.

(** ** Constants *)

(** [MIN_BNB_PURCHASE = 0.025]: the double nearest to 0.025, that is
    3602879701896397 * 2^-57 (= 7205759403792794 * 2^-58, 53-bit mantissa). *)
Definition MIN_BNB_PURCHASE : pynum := PyFloat 3602879701896397 (-57).

Definition REMINDER_INTERVAL : Z := 30 * 60.

(** ** web3: [fromWei(number, 'ether')]

    Library code (web3.utils): [0] is returned as the int 0; amounts outside
    [0, 2^256 - 1] raise [ValueError]; otherwise the result is the Decimal
    [number / 10^18], computed with 999 digits of precision, hence exactly. *)
Definition MAX_WEI : Z := 2 ^ 256 - 1.

Definition fromWei (number : Z) : res pynum :=
  if number =? 0 then Ok (PyInt 0)
  else if (number <? 0) || (MAX_WEI <? number) then Raise ValueError
  else Ok (PyDecimal number (10 ^ 18)).

(** ** Transactions *)

Record tx : Type := mk_tx {
  tx_from : string;
  tx_to : option string;     (* None for contract creation *)
  tx_value : Z;              (* wei *)
  tx_hash : string           (* already hex; [w3.toHex] leaves it as is *)
}.

(** The condition of [handle_new_block]'s loop body (lines 112-116):
    [Ok (Some (tx_hash, bnb_value, buyer_address))] for a qualifying
    transaction, [Ok None] for a skipped one, [Raise] if the conversion
    raises. *)
Definition evaluate (token_contract_address : string) (t : tx)
    : res (option (string * pynum * string)) :=
  if truthy (tx_to t) &&
     String.eqb (lower (match tx_to t with Some a => a | None => EmptyString end))
                (lower token_contract_address)
  then
    match fromWei (tx_value t) with
    | Raise e => Raise e
    | Ok bnb_value =>
        if py_ge bnb_value MIN_BNB_PURCHASE
        then Ok (Some (tx_hash t, bnb_value, tx_from t))
        else Ok None
    end
  else Ok None.

(** ** Effects: a writer/exception monad over printed and outside events *)

Inductive event : Type :=
  | EvProcessing (block_number : Z) (ntx : nat)   (* "Processing block ..." *)
  | EvQualifying (h : string) (v : pynum) (buyer : string)
  | EvSendPhoto (h : string)          (* the bot.send_photo API call *)
  | EvAlertSent (h : string)          (* "Sent new buy alert for tx: ..." *)
  | EvAlertError (e : exn)            (* "Error sending Telegram alert" / "An unexpected error ..." *)
  | EvBlockError (block_number : Z) (e : exn)
  | EvRecvError (e : exn)
  | EvSleep (seconds : Z)
  | EvCancelled
  | EvConnecting (attempt : nat)
  | EvConnFailed (e : exn).

Definition M (A : Type) : Type := (list event * res A)%type.

Definition ret {A} (a : A) : M A := ([], Ok a).
Definition raise {A} (e : exn) : M A := ([], Raise e).
Definition emit (ev : event) : M unit := ([ev], Ok tt).
Definition lift {A} (r : res A) : M A := ([], r).

Definition bind {A B} (m : M A) (k : A -> M B) : M B :=
  match m with
  | (t1, Ok a) => let (t2, r) := k a in (t1 ++ t2, r)
  | (t1, Raise e) => (t1, Raise e)
  end.

Notation "x <- m ;; k" := (bind m (fun x => k))
  (at level 61, m at next level, right associativity).
Notation "m ;; k" := (bind m (fun _ => k))
  (at level 61, right associativity).

(** [try: m except Exception as e: h e] *)
Definition try_except {A} (m : M A) (h : exn -> M A) : M A :=
  match m with
  | (t1, Ok a) => (t1, Ok a)
  | (t1, Raise e) => let (t2, r) := h e in (t1 ++ t2, r)
  end.

(** [asyncio.run(coro)]: refuses to run when the calling thread already runs
    an event loop; otherwise runs the coroutine to completion. *)
Definition asyncio_run {A} (in_event_loop : bool) (coro : M A) : M A :=
  if in_event_loop then raise RuntimeError else coro.

(** ** The outside world *)

Record env : Type := mk_env {
  TOKEN_CONTRACT_ADDRESS : string;
  get_block : Z -> res (list tx);     (* w3.eth.get_block(n, full_transactions=True) *)
  send_photo : string -> res unit;    (* bot.send_photo(...) for the alert of a tx hash *)
  connect : nat -> res unit           (* opening the websocket and subscribing, per attempt *)
}.

(** ** Telegram functions *)

(** [send_telegram_alert] (lines 41-69): formatting is total; every
    exception of [bot.send_photo] is caught and printed. *)
Definition send_telegram_alert (E : env) (h : string) (amount : pynum) (buyer : string)
    : M unit :=
  try_except
    (emit (EvSendPhoto h) ;; lift (send_photo E h) ;; emit (EvAlertSent h))
    (fun e => emit (EvAlertError e)).

(** ** Block processing *)

(** One iteration of the [for tx in block.transactions] loop. *)
Definition process_tx (E : env) (in_event_loop : bool) (t : tx) : M unit :=
  match evaluate (TOKEN_CONTRACT_ADDRESS E) t with
  | Raise e => raise e
  | Ok None => ret tt
  | Ok (Some (h, bnb_value, buyer_address)) =>
      emit (EvQualifying h bnb_value buyer_address) ;;
      asyncio_run in_event_loop (send_telegram_alert E h bnb_value buyer_address)
  end.

Fixpoint process_txs (E : env) (in_event_loop : bool) (ts : list tx) : M unit :=
  match ts with
  | [] => ret tt
  | t :: ts' => process_tx E in_event_loop t ;; process_txs E in_event_loop ts'
  end.

(** [handle_new_block] (lines 101-121); [in_event_loop] says whether the
    calling thread runs an asyncio event loop. *)
Definition handle_new_block (E : env) (in_event_loop : bool) (block_number : Z) : M unit :=
  try_except
    (txs <- lift (get_block E block_number) ;;
     emit (EvProcessing block_number (List.length txs)) ;;
     process_txs E in_event_loop txs)
    (fun e => emit (EvBlockError block_number e)).

(** ** The listener *)

(** What [await new_block_filter.receive()] yields. *)
Inductive recv : Type :=
  | RecvHeader (block_number : Z)
  | RecvError (e : exn)
  | RecvCancelled.

(** The [while True] loop (lines 139-154), over the headers delivered during
    the observed run ([[]]: the observation ends while still waiting).
    [handle_new_block] is called from inside the coroutine, so with a
    running event loop. *)
Fixpoint receive_loop (E : env) (rs : list recv) : M unit :=
  match rs with
  | [] => ret tt
  | RecvHeader n :: rs' =>
      try_except (handle_new_block E true n)
                 (fun e => emit (EvRecvError e) ;; emit (EvSleep 2)) ;;
      receive_loop E rs'
  | RecvError e :: rs' =>
      emit (EvRecvError e) ;; emit (EvSleep 2) ;; receive_loop E rs'
  | RecvCancelled :: _ => emit EvCancelled
  end.

(** [listen_for_new_blocks] (lines 123-159). [attempt] numbers the
    connection attempts; [fuel] bounds the nesting of retries. The retry
    [asyncio.run(listen_for_new_blocks())] runs inside the coroutine, hence
    inside the running event loop. *)
Fixpoint listen_for_new_blocks (E : env) (fuel attempt : nat) (rs : list recv) : M unit :=
  match fuel with
  | O => ret tt
  | S f =>
      emit (EvConnecting attempt) ;;
      try_except
        (lift (connect E attempt) ;; receive_loop E rs)
        (fun e =>
           emit (EvConnFailed e) ;; emit (EvSleep 5) ;;
           asyncio_run true (listen_for_new_blocks E f (S attempt) rs))
  end.

(** ** Process bootstrap (module level and [__main__], lines 26-37, 162-188) *)

Module Bootstrap.

Record config : Type := mk_config {
  TELEGRAM_BOT_TOKEN : option string;      (* os.environ.get("TEL_BOT_TOKEN") *)
  TELEGRAM_CHAT_ID : option string;        (* os.environ.get("TEL_CHAT_ID") *)
  QUICKNODE_WSS_URL : option string;       (* os.environ.get("QN_WSS_URL") *)
  TOKEN_CONTRACT_ADDRESS : option string   (* os.environ.get("TOKEN_CONTRACT_ADDRESS") *)
}.

Inductive boot_event : Type :=
  | Print (s : string)
  | StartReminderTimer       (* Timer(30 * 60, send_reminder).start() *)
  | StartListener.           (* asyncio.run(listen_for_new_blocks()) *)

Definition msg_missing1 : string :=
  "Error: One or more required environment variables are not set.".
Definition msg_missing2 : string :=
  "Please set TEL_BOT_TOKEN, TEL_CHAT_ID, QN_WSS_URL, and TOKEN_CONTRACT_ADDRESS.".

(** The names of the required variables that are unset or empty. *)
Definition missing_vars (cfg : config) : list string :=
  (if truthy (TELEGRAM_BOT_TOKEN cfg) then [] else ["TEL_BOT_TOKEN"%string]) ++
  (if truthy (TELEGRAM_CHAT_ID cfg) then [] else ["TEL_CHAT_ID"%string]) ++
  (if truthy (QUICKNODE_WSS_URL cfg) then [] else ["QN_WSS_URL"%string]) ++
  (if truthy (TOKEN_CONTRACT_ADDRESS cfg) then [] else ["TOKEN_CONTRACT_ADDRESS"%string]).

(** How [asyncio.run(listen_for_new_blocks())] (line 188) ends: [None] if
    it never returns, [Some (Ok tt)] if it returns (after the loop's
    [break] on a cancellation), [Some (Raise e)] if an exception escapes
    it. The script then ends: with status 0 when it returns, with status 1
    when the exception is uncaught. *)
Definition exit_status (listener : option (res unit)) : option Z :=
  match listener with
  | None => None
  | Some (Ok _) => Some 0
  | Some (Raise _) => Some 1
  end.

(** Running the script: the printed lines and background starts, and the
    exit status ([None]: the process goes on running the listener).
    [bot_ctor] is the library's [Bot(token=...)] constructor run at import
    time (an exception there is uncaught: status 1); [is_connected] is the
    outcome of building the HTTP provider and [w3.is_connected()];
    [listener] is how the listener's run ends. *)
Definition main (cfg : config) (bot_ctor : option string -> res unit)
    (is_connected : res bool) (listener : option (res unit))
    : list boot_event * option Z :=
  match bot_ctor (TELEGRAM_BOT_TOKEN cfg) with
  | Raise _ => ([], Some 1)
  | Ok _ =>
      if negb (truthy (TELEGRAM_BOT_TOKEN cfg) && truthy (TELEGRAM_CHAT_ID cfg) &&
               truthy (QUICKNODE_WSS_URL cfg) && truthy (TOKEN_CONTRACT_ADDRESS cfg))
      then ([Print msg_missing1; Print msg_missing2], Some 1)
      else
        let starting := Print "Bot is starting..." in
        match is_connected with
        | Ok true =>
            ([starting; Print "Starting 30-minute reminder timer...";
              StartReminderTimer; Print "Starting blockchain listener...";
              StartListener], exit_status listener)
        | _ => ([starting; Print "Error initializing Web3 HTTP provider"], Some 1)
        end
  end.

End Bootstrap.

(** ** The reminder timer (lines 72-98, 180-184)

    Time is in seconds. [Timer(interval, f).start()] at time [t] makes [f]
    run at [t + interval]. A send attempt takes [att_duration] seconds and
    ends with [att_outcome]. *)

Module Reminder.

Record attempt : Type := mk_attempt {
  att_duration : Z;
  att_outcome : res unit
}.

Inductive rem_event : Type :=
  | Fire (t : Z)                      (* send_reminder starts *)
  | Printed (t : Z) (s : string)      (* outcome line of the try/except *)
  | TimerStart (t : Z) (due : Z).     (* Timer(30 * 60, send_reminder).start() *)

Definition start_timer (now : Z) : rem_event * Z :=
  (TimerStart now (now + REMINDER_INTERVAL), now + REMINDER_INTERVAL).

(** One run of [send_reminder] at time [now]: its events and the due times
    of the timers it starts. *)
Definition send_reminder (now : Z) (a : attempt) : list rem_event * list Z :=
  let done_ := now + att_duration a in
  let line :=
    match att_outcome a with
    | Ok _ => "Sent 30-minute reminder."%string
    | Raise TelegramError => "Error sending reminder"%string
    | Raise _ => "An unexpected error occurred in send_reminder"%string
    end in
  let (ev, due) := start_timer done_ in
  ([Fire now; Printed done_ line; ev], [due]).

Fixpoint insert_due (t : Z) (pending : list Z) : list Z :=
  match pending with
  | [] => [t]
  | p :: ps => if t <? p then t :: p :: ps else p :: insert_due t ps
  end.

(** The timer thread pool: the earliest pending timer fires next and uses
    the next send attempt. *)
Fixpoint run_timers (pending : list Z) (atts : list attempt) : list rem_event :=
  match atts, pending with
  | a :: atts', t :: pending' =>
      let (evs, news) := send_reminder t a in
      evs ++ run_timers (fold_right insert_due pending' news) atts'
  | _, _ => []
  end.

(** [__main__] starts the first timer at [t0]. *)
Definition scheduler (t0 : Z) (atts : list attempt) : list rem_event :=
  let (ev, due) := start_timer t0 in ev :: run_timers [due] atts.

Fixpoint firing_times (tr : list rem_event) : list Z :=
  match tr with
  | [] => []
  | Fire t :: tr' => t :: firing_times tr'
  | _ :: tr' => firing_times tr'
  end.

End Reminder.

(** ** The buy-alert text (lines 47-54)

    The two computed fields of the caption: [{amount:.3f}] and
    [{buyer_address[:6]}...{buyer_address[-4:]}]. *)

Module AlertText.

(** [s[:k]] on a Python string. *)
Definition py_prefix (k : nat) (s : string) : string := substring 0 k s.

(** [s[-k:]] on a Python string (the whole string when it is shorter). *)
Definition py_suffix (k : nat) (s : string) : string :=
  let n := String.length s in
  if (k <=? n)%nat then substring (n - k) k s else s.

Definition buyer_text (buyer_address : string) : string :=
  py_prefix 6 buyer_address ++ "..." ++ py_suffix 4 buyer_address.

(** Decimal's [format(x, '.3f')] rounds with the context's rounding mode,
    [ROUND_HALF_EVEN] by default: [a / b] to an integer, for [a >= 0], [b > 0]. *)
Definition round_half_even (a b : Z) : Z :=
  let q := a / b in
  let r := a mod b in
  if 2 * r <? b then q
  else if b <? 2 * r then q + 1
  else if Z.even q then q else q + 1.

Definition digit_char (d : Z) : ascii := ascii_of_nat (48 + Z.to_nat d).

(** Decimal digits of [n >= 0] in front of [acc] ([fuel] bounds their number). *)
Fixpoint dec_digits (fuel : nat) (n : Z) (acc : string) : string :=
  match fuel with
  | O => acc
  | S f =>
      let acc' := String (digit_char (n mod 10)) acc in
      if n / 10 =? 0 then acc' else dec_digits f (n / 10) acc'
  end.

Definition digits_fuel (n : Z) : nat := S (Z.to_nat (Z.log2 n)).

(** [format(x, '.3f')] for an exact value [n / d] ([d > 0]). *)
Definition format_3f (n d : Z) : string :=
  let q := round_half_even (1000 * Z.abs n) d in
  let ip := q / 1000 in
  let r := q mod 1000 in
  (if n <? 0 then "-" else "") ++
  dec_digits (digits_fuel ip) ip
    (String "." (String (digit_char (r / 100))
                 (String (digit_char (r / 10 mod 10))
                   (String (digit_char (r mod 10)) EmptyString)))).

Definition amount_text (amount : pynum) : string :=
  let (n, d) := pynum_frac amount in format_3f n d.

(** Reading a [.3f] text back, in thousandths. *)
Definition char_digit (c : ascii) : option Z :=
  let k := nat_of_ascii c in
  if (48 <=? k)%nat && (k <=? 57)%nat then Some (Z.of_nat (k - 48)) else None.

Definition parse_frac3 (s : string) : option Z :=
  match s with
  | String c1 (String c2 (String c3 EmptyString)) =>
      match char_digit c1, char_digit c2, char_digit c3 with
      | Some d1, Some d2, Some d3 => Some (100 * d1 + 10 * d2 + d3)
      | _, _, _ => None
      end
  | _ => None
  end.

Fixpoint parse_fixed3 (s : string) (acc : Z) : option Z :=
  match s with
  | EmptyString => None
  | String c s' =>
      if Ascii.eqb c "." then
        match parse_frac3 s' with
        | Some r => Some (1000 * acc + r)
        | None => None
        end
      else match char_digit c with
           | Some d => parse_fixed3 s' (10 * acc + d)
           | None => None
           end
  end.

End AlertText.

(** ** The HTTP endpoint (line 172)

    [QUICKNODE_WSS_URL.replace("wss://", "https://")]: Python's
    [str.replace] scans left to right and replaces every non-overlapping
    occurrence. *)

Module HttpUrl.

Fixpoint py_replace_fuel (fuel : nat) (old new s : string) : string :=
  match fuel with
  | O => s
  | S f =>
      match s with
      | EmptyString => EmptyString
      | String c s' =>
          if String.prefix old s
          then new ++ py_replace_fuel f old new
                        (substring (String.length old)
                                   (String.length s - String.length old) s)
          else String c (py_replace_fuel f old new s')
      end
  end.

(** [s.replace(old, new)] for a non-empty [old]: each step consumes at
    least one character, so [String.length s] steps suffice. *)
Definition py_replace (old new s : string) : string :=
  py_replace_fuel (String.length s) old new s.

(** [old in s] *)
Fixpoint py_contains (old s : string) : bool :=
  match s with
  | EmptyString => String.prefix old EmptyString
  | String _ s' => String.prefix old s || py_contains old s'
  end.

Definition http_url (QUICKNODE_WSS_URL : string) : string :=
  py_replace "wss://" "https://" QUICKNODE_WSS_URL.

End HttpUrl.


(** * Properties *)

(** ** The threshold *)

(** [MIN_BNB_PURCHASE] is the correctly rounded double of 0.025: a 53-bit
    mantissa at exponent -58, within less than half an ulp of 1/40. *)
Lemma MIN_BNB_PURCHASE_nearest :
  MIN_BNB_PURCHASE = PyFloat 3602879701896397 (-57) /\
  2 ^ 52 <= 2 * 3602879701896397 < 2 ^ 53 /\
  Z.abs (40 * (2 * 3602879701896397) - 2 ^ 58) * 2 < 40.
Proof. vm_compute. repeat split; discriminate. Qed.

(** Against the float, an exact Decimal [v / 10^18] passes exactly from
    [v = 25000000000000002] on. *)
Lemma py_ge_wei_min (v : Z) :
  py_ge (PyDecimal v (10 ^ 18)) MIN_BNB_PURCHASE = (25000000000000002 <=? v).
Proof.
  change (py_ge (PyDecimal v (10 ^ 18)) MIN_BNB_PURCHASE) with
    (3602879701896397 * 10 ^ 18 <=? v * 2 ^ 57).
  destruct (Z.leb_spec 25000000000000002 v) as [H|H].
  - apply Z.leb_le.
    apply Z.le_trans with (25000000000000002 * 2 ^ 57).
    + apply Z.leb_le. vm_compute. reflexivity.
    + apply Z.mul_le_mono_nonneg_r; [apply Z.leb_le; vm_compute; reflexivity | exact H].
  - apply Z.leb_gt.
    apply Z.le_lt_trans with (25000000000000001 * 2 ^ 57).
    + apply Z.mul_le_mono_nonneg_r; [apply Z.leb_le; vm_compute; reflexivity |].
      apply Z.lt_succ_r. exact H.
    + apply Z.ltb_lt. vm_compute. reflexivity.
Qed.

Lemma fromWei_in_range (v : Z) :
  0 <= v <= MAX_WEI ->
  fromWei v = if v =? 0 then Ok (PyInt 0) else Ok (PyDecimal v (10 ^ 18)).
Proof.
  intros [H0 H1]. unfold fromWei.
  destruct (v =? 0) eqn:E; [reflexivity|].
  destruct (Z.ltb_spec v 0); [lia|].
  destruct (Z.ltb_spec MAX_WEI v); [lia|]. reflexivity.
Qed.

Lemma evaluate_no_raise_in_range (token : string) (t : tx) :
  0 <= tx_value t <= MAX_WEI -> forall e, evaluate token t <> Raise e.
Proof.
  intros H e. unfold evaluate. rewrite (fromWei_in_range _ H).
  destruct (_ && _); [|discriminate].
  destruct (tx_value t =? 0); [|destruct (py_ge _ _)]; discriminate.
Qed.

Lemma lower_eqb_spec (a b : string) :
  String.eqb (lower a) (lower b) = true <-> lower a = lower b.
Proof. apply String.eqb_eq. Qed.

(** C1 (as the code has it): in the range web3 accepts, a transaction
    qualifies iff its recipient is present and non-empty, lower-cases to the
    watched address, and its value is at least 25000000000000002 wei, the
    first amount above the float 0.025; otherwise the check yields nothing,
    and it never raises. *)
Theorem evaluate_qualifies_iff (token : string) (t : tx)
    (Hrange : 0 <= tx_value t <= MAX_WEI) :
  (forall e, evaluate token t <> Raise e) /\
  ((exists q, evaluate token t = Ok (Some q)) <->
   (exists a, tx_to t = Some a /\ a <> EmptyString /\ lower a = lower token /\
              25000000000000002 <= tx_value t)).
Proof.
  unfold evaluate. rewrite (fromWei_in_range _ Hrange).
  destruct (tx_to t) as [a|] eqn:Hto; simpl.
  - destruct (String.eqb_spec a EmptyString) as [Ha|Ha]; simpl.
    + split; [discriminate|]. split.
      * intros [q Hq]; discriminate.
      * intros (a' & Heq & Hne & _). inversion Heq; subst; contradiction.
    + destruct (String.eqb (lower a) (lower token)) eqn:Hl.
      * apply lower_eqb_spec in Hl.
        destruct (tx_value t =? 0) eqn:Hz.
        -- apply Z.eqb_eq in Hz. simpl. split; [discriminate|]. split.
           ++ intros [q Hq]; discriminate.
           ++ intros (_ & _ & _ & _ & Hv). lia.
        -- rewrite py_ge_wei_min.
           destruct (Z.leb_spec 25000000000000002 (tx_value t)).
           ++ split; [discriminate|]. split; [intros _; eauto 6|eauto].
           ++ split; [discriminate|]. split.
              ** intros [q Hq]; discriminate.
              ** intros (_ & _ & _ & _ & Hv). lia.
      * split; [discriminate|]. split.
        -- intros [q Hq]; discriminate.
        -- intros (a' & Heq & _ & Hl' & _). inversion Heq; subst.
           apply lower_eqb_spec in Hl'. congruence.
  - split; [discriminate|]. split.
    + intros [q Hq]; discriminate.
    + intros (a' & Heq & _). discriminate.
Qed.

Lemma evaluate_qualifies_iff_witness :
  0 <= tx_value (mk_tx "0x1"%string (Some "0xAB"%string) 30000000000000000 "0xh"%string) <= MAX_WEI /\
  exists q, evaluate "0xab"%string (mk_tx "0x1"%string (Some "0xAB"%string) 30000000000000000 "0xh"%string) = Ok (Some q).
Proof.
  split; [vm_compute; split; discriminate|].
  apply (proj2 (evaluate_qualifies_iff "0xab"%string (mk_tx "0x1"%string (Some "0xAB"%string) 30000000000000000 "0xh"%string)
           ltac:(vm_compute; split; discriminate))).
  exists "0xAB"%string. split; [reflexivity|]. split; [discriminate|].
  split; [reflexivity|]. vm_compute. discriminate.
Defined.

(** C2: at the boundary, 25000000000000000 wei converts to the exact Decimal
    0.025, which is below the float 0.025; a transfer of exactly that amount
    to the watched address does not qualify. *)
Theorem exact_threshold_not_qualifying (token buyer h : string) :
  fromWei 25000000000000000 = Ok (PyDecimal 25000000000000000 (10 ^ 18)) /\
  py_ge (PyDecimal 25000000000000000 (10 ^ 18)) MIN_BNB_PURCHASE = false /\
  evaluate token (mk_tx buyer (Some token) 25000000000000000 h) = Ok None.
Proof.
  assert (Hw : fromWei 25000000000000000 = Ok (PyDecimal 25000000000000000 (10 ^ 18)))
    by (vm_compute; reflexivity).
  assert (Hg : py_ge (PyDecimal 25000000000000000 (10 ^ 18)) MIN_BNB_PURCHASE = false)
    by (rewrite py_ge_wei_min; vm_compute; reflexivity).
  split; [exact Hw|]. split; [exact Hg|].
  unfold evaluate. cbn [tx_to tx_value].
  destruct (truthy (Some token)); cbn [andb]; [|reflexivity].
  rewrite String.eqb_refl, Hw, Hg. reflexivity.
Qed.

(** C4: a contract-creation transaction (no recipient) yields nothing: the
    check returns no event without raising, and the loop body produces no
    output and returns normally. *)
Theorem contract_creation_skipped (E : env) (in_event_loop : bool) (t : tx)
    (Hto : tx_to t = None) :
  evaluate (TOKEN_CONTRACT_ADDRESS E) t = Ok None /\
  process_tx E in_event_loop t = ([], Ok tt).
Proof.
  assert (H : evaluate (TOKEN_CONTRACT_ADDRESS E) t = Ok None)
    by (unfold evaluate; rewrite Hto; reflexivity).
  split; [exact H|]. unfold process_tx. rewrite H. reflexivity.
Qed.

Lemma contract_creation_skipped_witness :
  let E := mk_env "0xab"%string (fun _ => Ok []) (fun _ => Ok tt) (fun _ => Ok tt) in
  let t := mk_tx "0x1"%string None (-5) "0xh"%string in
  tx_to t = None /\
  evaluate (TOKEN_CONTRACT_ADDRESS E) t = Ok None /\ process_tx E true t = ([], Ok tt).
Proof.
  intros E t. split; [reflexivity|]. apply (contract_creation_skipped E true t). reflexivity.
Defined.

(** ** Effects: equations of the monad *)

Lemma fst_bind {A B} (m : M A) (k : A -> M B) :
  fst (bind m k) = fst m ++ match snd m with Ok a => fst (k a) | Raise _ => [] end.
Proof.
  destruct m as [t [a|e]]; simpl; [destruct (k a); reflexivity | now rewrite app_nil_r].
Qed.

Lemma snd_bind {A B} (m : M A) (k : A -> M B) :
  snd (bind m k) = match snd m with Ok a => snd (k a) | Raise e => Raise e end.
Proof. destruct m as [t [a|e]]; simpl; [destruct (k a)|]; reflexivity. Qed.

Lemma fst_try {A} (m : M A) (h : exn -> M A) :
  fst (try_except m h) = fst m ++ match snd m with Ok _ => [] | Raise e => fst (h e) end.
Proof.
  destruct m as [t [a|e]]; simpl; [now rewrite app_nil_r | destruct (h e); reflexivity].
Qed.

Lemma snd_try {A} (m : M A) (h : exn -> M A) :
  snd (try_except m h) = match snd m with Ok a => Ok a | Raise e => snd (h e) end.
Proof. destruct m as [t [a|e]]; simpl; [|destruct (h e)]; reflexivity. Qed.

Lemma bind_lift_ok {A B} (a : A) (k : A -> M B) : bind (lift (Ok a)) k = k a.
Proof. unfold bind, lift. destruct (k a); reflexivity. Qed.

Lemma bind_emit {B} ev (k : unit -> M B) :
  bind (emit ev) k = (ev :: fst (k tt), snd (k tt)).
Proof. unfold bind, emit. destruct (k tt); reflexivity. Qed.

Lemma send_telegram_alert_eq (E : env) h amount buyer :
  send_telegram_alert E h amount buyer =
  match send_photo E h with
  | Ok _ => ([EvSendPhoto h; EvAlertSent h], Ok tt)
  | Raise e => ([EvSendPhoto h; EvAlertError e], Ok tt)
  end.
Proof. unfold send_telegram_alert. destruct (send_photo E h) as [[]|e]; reflexivity. Qed.

(** [handle_new_block] catches everything: it always returns normally. *)
Lemma handle_new_block_returns (E : env) b n : snd (handle_new_block E b n) = Ok tt.
Proof.
  unfold handle_new_block. rewrite snd_try.
  destruct (snd _) as [[]|e]; reflexivity.
Qed.

(** ** Alert calls *)

Fixpoint sent_alerts (tr : list event) : list string :=
  match tr with
  | [] => []
  | EvSendPhoto h :: tr' => h :: sent_alerts tr'
  | _ :: tr' => sent_alerts tr'
  end.

Lemma sent_alerts_app l1 l2 : sent_alerts (l1 ++ l2) = sent_alerts l1 ++ sent_alerts l2.
Proof. induction l1 as [|[] l1 IH]; simpl; try rewrite IH; reflexivity. Qed.

(** The hashes of the transactions of a block that pass the check. *)
Definition qualifying_hashes (token : string) (ts : list tx) : list string :=
  flat_map (fun t => match evaluate token t with
                     | Ok (Some (h, _, _)) => [h]
                     | _ => []
                     end) ts.

Lemma process_tx_in_loop_no_alert (E : env) t :
  sent_alerts (fst (process_tx E true t)) = [].
Proof.
  unfold process_tx. destruct (evaluate _ t) as [[[[h v] buyer]|]|e]; reflexivity.
Qed.

Lemma process_txs_in_loop_no_alert (E : env) ts :
  sent_alerts (fst (process_txs E true ts)) = [].
Proof.
  induction ts as [|t ts IH]; [reflexivity|]. simpl process_txs.
  rewrite fst_bind, sent_alerts_app, process_tx_in_loop_no_alert.
  destruct (snd (process_tx E true t)); [exact IH|reflexivity].
Qed.

Lemma handle_new_block_in_loop_no_alert (E : env) n :
  sent_alerts (fst (handle_new_block E true n)) = [].
Proof.
  unfold handle_new_block. rewrite fst_try, sent_alerts_app.
  destruct (get_block E n) as [txs|e]; simpl.
  - pose proof (process_txs_in_loop_no_alert E txs) as H.
    destruct (process_txs E true txs) as [t r]; simpl in *.
    destruct r; simpl; rewrite ?H; reflexivity.
  - reflexivity.
Qed.

Lemma receive_loop_no_alert (E : env) rs : sent_alerts (fst (receive_loop E rs)) = [].
Proof.
  induction rs as [|[n|e|] rs IH]; simpl receive_loop; try reflexivity.
  - rewrite fst_bind, sent_alerts_app, fst_try, sent_alerts_app,
      handle_new_block_in_loop_no_alert, snd_try, handle_new_block_returns.
    simpl. exact IH.
  - destruct (receive_loop E rs) as [t r]. exact IH.
Qed.

(** What the loop would do where [asyncio.run] can start the coroutine
    (no running event loop): one send call per qualifying transaction, in
    block order. *)
Lemma process_txs_outside_loop_alerts (E : env) ts :
  Forall (fun t => 0 <= tx_value t <= MAX_WEI) ts ->
  snd (process_txs E false ts) = Ok tt /\
  sent_alerts (fst (process_txs E false ts)) =
  qualifying_hashes (TOKEN_CONTRACT_ADDRESS E) ts.
Proof.
  induction 1 as [|t ts Ht _ IH]; [split; reflexivity|].
  simpl process_txs. rewrite fst_bind, snd_bind, sent_alerts_app.
  unfold process_tx, qualifying_hashes; simpl flat_map; fold (qualifying_hashes (TOKEN_CONTRACT_ADDRESS E) ts).
  pose proof (evaluate_no_raise_in_range (TOKEN_CONTRACT_ADDRESS E) t Ht) as Hne.
  destruct (evaluate _ t) as [[[[h v] buyer]|]|e]; [| exact IH | now destruct (Hne e)].
  unfold asyncio_run. rewrite send_telegram_alert_eq.
  destruct IH as [IH1 IH2].
  destruct (send_photo E h); simpl; rewrite IH2; split; auto.
Qed.

(** C3 (as the code runs): [handle_new_block] is only called from inside
    the listener's coroutine, where [asyncio.run(send_telegram_alert(...))]
    raises [RuntimeError]; hence no block ever leads to a send call,
    whatever its qualifying transactions, and neither does the listener. *)
Theorem listener_sends_no_alert (E : env) :
  (forall n, sent_alerts (fst (handle_new_block E true n)) = []) /\
  (forall fuel attempt rs,
     sent_alerts (fst (listen_for_new_blocks E fuel attempt rs)) = []).
Proof.
  split; [apply handle_new_block_in_loop_no_alert|].
  intros [|f] attempt rs; [reflexivity|].
  simpl listen_for_new_blocks.
  pose proof (receive_loop_no_alert E rs) as H.
  destruct (connect E attempt) as [[]|e];
    [destruct (receive_loop E rs) as [t [[]|e]]|]; simpl in *;
    rewrite ?sent_alerts_app, ?H; reflexivity.
Qed.

(** ** Delivery failures *)

(** The environment with another outcome for the Telegram send calls. *)
Definition with_send (E : env) (f : string -> res unit) : env :=
  mk_env (TOKEN_CONTRACT_ADDRESS E) (get_block E) f (connect E).

(** The trace without the lines that report a send's outcome. *)
Definition erase_outcomes (tr : list event) : list event :=
  filter (fun ev => match ev with
                    | EvAlertSent _ | EvAlertError _ => false
                    | _ => true
                    end) tr.

(** Two runs agree up to the outcome lines, with the same result. *)
Definition same_run {A} (m1 m2 : M A) : Prop :=
  erase_outcomes (fst m1) = erase_outcomes (fst m2) /\ snd m1 = snd m2.

Lemma same_run_refl {A} (m : M A) : same_run m m.
Proof. split; reflexivity. Qed.

Lemma same_run_bind {A B} (m1 m2 : M A) (k1 k2 : A -> M B) :
  same_run m1 m2 -> (forall a, same_run (k1 a) (k2 a)) ->
  same_run (bind m1 k1) (bind m2 k2).
Proof.
  intros [Ht Hr] Hk. unfold same_run.
  rewrite !fst_bind, !snd_bind, <- Hr.
  destruct (snd m1) as [a|e]; [destruct (Hk a) as [Ht' Hr']; rewrite Hr'|];
    unfold erase_outcomes in *; rewrite !filter_app, Ht; [rewrite Ht'|];
    split; reflexivity.
Qed.

Lemma same_run_try {A} (m1 m2 : M A) (h : exn -> M A) :
  same_run m1 m2 -> same_run (try_except m1 h) (try_except m2 h).
Proof.
  intros [Ht Hr]. unfold same_run.
  rewrite !fst_try, !snd_try, <- Hr. unfold erase_outcomes in *.
  rewrite !filter_app, Ht. split; reflexivity.
Qed.

Lemma process_tx_same_run (E : env) f g b t :
  same_run (process_tx (with_send E f) b t) (process_tx (with_send E g) b t).
Proof.
  unfold process_tx. cbn [TOKEN_CONTRACT_ADDRESS with_send].
  destruct (evaluate _ t) as [[[[h v] buyer]|]|e]; try apply same_run_refl.
  apply same_run_bind; [apply same_run_refl|]. intros _.
  destruct b; [apply same_run_refl|]. cbn [asyncio_run].
  rewrite !send_telegram_alert_eq. cbn [send_photo with_send].
  destruct (f h), (g h); split; reflexivity.
Qed.

Lemma handle_new_block_same_run (E : env) f g b n :
  same_run (handle_new_block (with_send E f) b n) (handle_new_block (with_send E g) b n).
Proof.
  unfold handle_new_block. apply same_run_try. cbn [get_block with_send].
  apply same_run_bind; [apply same_run_refl|]. intros txs.
  apply same_run_bind; [apply same_run_refl|]. intros _.
  induction txs as [|t ts IH]; [apply same_run_refl|]. simpl process_txs.
  apply same_run_bind; [apply process_tx_same_run|]. intros _. exact IH.
Qed.

Lemma receive_loop_same_run (E : env) f g rs :
  same_run (receive_loop (with_send E f) rs) (receive_loop (with_send E g) rs).
Proof.
  induction rs as [|[n|e|] rs IH]; simpl receive_loop; try apply same_run_refl.
  - apply same_run_bind; [apply same_run_try, handle_new_block_same_run|].
    intros _. exact IH.
  - destruct IH as [H1 H2].
    destruct (receive_loop (with_send E f) rs) as [t1 r1],
             (receive_loop (with_send E g) rs) as [t2 r2].
    unfold same_run, erase_outcomes in *. simpl in *. rewrite H1, H2.
    split; reflexivity.
Qed.

(** C5: a failed send ([TelegramError] or any other exception) is caught
    inside [send_telegram_alert], which returns normally;
    [handle_new_block] returns normally; and how the sends turn out changes
    nothing in the processing of a block or of the following headers but
    the printed outcome line (compared with every send succeeding). *)
Theorem delivery_failure_swallowed :
  (forall E h amount buyer, snd (send_telegram_alert E h amount buyer) = Ok tt) /\
  (forall E b n, snd (handle_new_block E b n) = Ok tt) /\
  (forall E f b n,
     same_run (handle_new_block (with_send E f) b n)
              (handle_new_block (with_send E (fun _ => Ok tt)) b n)) /\
  (forall E f rs,
     same_run (receive_loop (with_send E f) rs)
              (receive_loop (with_send E (fun _ => Ok tt)) rs)).
Proof.
  split; [intros; rewrite send_telegram_alert_eq; destruct (send_photo E h); reflexivity|].
  split; [apply handle_new_block_returns|].
  split; intros; [apply handle_new_block_same_run | apply receive_loop_same_run].
Qed.

(** ** Errors inside a block *)

Lemma process_txs_app_ok (E : env) b l1 l2 :
  snd (process_txs E b l1) = Ok tt ->
  process_txs E b (l1 ++ l2) =
  (fst (process_txs E b l1) ++ fst (process_txs E b l2), snd (process_txs E b l2)).
Proof.
  induction l1 as [|t l1 IH]; intros H.
  - simpl. destruct (process_txs E b l2); reflexivity.
  - simpl in *. destruct (process_tx E b t) as [t0 [[]|e]]; [|discriminate].
    simpl in *. destruct (process_txs E b l1) as [t1 r1] eqn:E1. simpl in H.
    rewrite (IH H). simpl. rewrite app_assoc. reflexivity.
Qed.

Lemma process_txs_raise (E : env) b t l e :
  snd (process_tx E b t) = Raise e ->
  process_txs E b (t :: l) = (fst (process_tx E b t), Raise e).
Proof.
  intros H. simpl. destruct (process_tx E b t) as [t0 r]. simpl in H. subst r. reflexivity.
Qed.

(** C9: if the [k]-th transaction of a block raises (here: anything but the
    swallowed send), the block's trace stops there: the transactions after
    it produce nothing, [handle_new_block] prints the block error and
    returns, and the listener goes on with the next headers. *)
Theorem block_error_skips_rest (E : env) (n : Z) (pre post : list tx) (t : tx)
    (e : exn) (rs : list recv)
    (Hblk : get_block E n = Ok (pre ++ t :: post))
    (Hpre : snd (process_txs E true pre) = Ok tt)
    (Ht : snd (process_tx E true t) = Raise e) :
  receive_loop E (RecvHeader n :: rs) =
  (EvProcessing n (List.length (pre ++ t :: post)) ::
     fst (process_txs E true pre) ++ fst (process_tx E true t) ++
     EvBlockError n e :: fst (receive_loop E rs),
   snd (receive_loop E rs)).
Proof.
  assert (Hh : handle_new_block E true n =
               (EvProcessing n (List.length (pre ++ t :: post)) ::
                  fst (process_txs E true pre) ++ fst (process_tx E true t) ++
                  [EvBlockError n e], Ok tt)).
  { unfold handle_new_block. rewrite Hblk, bind_lift_ok, bind_emit.
    rewrite (process_txs_app_ok E true pre (t :: post) Hpre).
    rewrite (process_txs_raise E true t post e Ht).
    simpl. rewrite <- app_assoc. reflexivity. }
  simpl receive_loop. rewrite Hh. simpl.
  destruct (receive_loop E rs) as [tr r]. simpl.
  rewrite <- !app_assoc. reflexivity.
Qed.

Lemma block_error_skips_rest_witness :
  let q1 := mk_tx "0xb1"%string (Some "0xAB"%string) 30000000000000000 "0xh1"%string in
  let q2 := mk_tx "0xb2"%string (Some "0xab"%string) 40000000000000000 "0xh2"%string in
  let E := mk_env "0xab"%string (fun _ => Ok [q1; q2]) (fun _ => Ok tt) (fun _ => Ok tt) in
  get_block E 7 = Ok ([] ++ q1 :: [q2]) /\
  snd (process_txs E true []) = Ok tt /\
  snd (process_tx E true q1) = Raise RuntimeError /\
  receive_loop E [RecvHeader 7; RecvHeader 8] =
  (EvProcessing 7 (List.length ([] ++ q1 :: [q2])) ::
     fst (process_txs E true []) ++ fst (process_tx E true q1) ++
     EvBlockError 7 RuntimeError :: fst (receive_loop E [RecvHeader 8]),
   snd (receive_loop E [RecvHeader 8])).
Proof.
  intros q1 q2 E.
  assert (H1 : get_block E 7 = Ok ([] ++ q1 :: [q2])) by reflexivity.
  assert (H2 : snd (process_txs E true []) = Ok tt) by reflexivity.
  assert (H3 : snd (process_tx E true q1) = Raise RuntimeError) by (vm_compute; reflexivity).
  split; [exact H1|]. split; [exact H2|]. split; [exact H3|].
  exact (block_error_skips_rest E 7 [] [q2] q1 RuntimeError [RecvHeader 8] H1 H2 H3).
Defined.

(** ** Reconnecting *)

(** C6 (as the code runs): after a failed connection attempt the listener
    prints, sleeps 5 seconds, and its retry [asyncio.run(...)] raises
    [RuntimeError] inside the running loop: no second attempt is made and
    the exception leaves [listen_for_new_blocks]. *)
Theorem connection_failure_not_retried (E : env) (fuel attempt : nat) (rs : list recv)
    (e : exn) (Hc : connect E attempt = Raise e) :
  listen_for_new_blocks E (S fuel) attempt rs =
  ([EvConnecting attempt; EvConnFailed e; EvSleep 5], Raise RuntimeError).
Proof. simpl. rewrite Hc. reflexivity. Qed.

Lemma connection_failure_not_retried_witness :
  let E := mk_env "0xab"%string (fun _ => Ok []) (fun _ => Ok tt)
                  (fun _ => Raise ConnectionError) in
  connect E 0 = Raise ConnectionError /\
  listen_for_new_blocks E 10 0 [] =
  ([EvConnecting 0; EvConnFailed ConnectionError; EvSleep 5], Raise RuntimeError).
Proof.
  intros E. split; [reflexivity|].
  exact (connection_failure_not_retried E 9 0 [] ConnectionError eq_refl).
Defined.

(** ** Startup *)

Module BootstrapFacts.
Import Bootstrap.

Lemma missing_vars_nil (cfg : config) :
  missing_vars cfg = [] <->
  truthy (TELEGRAM_BOT_TOKEN cfg) && truthy (TELEGRAM_CHAT_ID cfg) &&
  truthy (QUICKNODE_WSS_URL cfg) && truthy (TOKEN_CONTRACT_ADDRESS cfg) = true.
Proof.
  unfold missing_vars.
  destruct (truthy (TELEGRAM_BOT_TOKEN cfg)), (truthy (TELEGRAM_CHAT_ID cfg)),
           (truthy (QUICKNODE_WSS_URL cfg)), (truthy (TOKEN_CONTRACT_ADDRESS cfg));
    simpl; split; intro H; (reflexivity || discriminate).
Qed.




End BootstrapFacts.

(** ** The reminder timer *)

Module ReminderFacts.
Import Reminder.

(** The firing times a run of [send_reminder] calls goes through, the first
    at [t]: each firing is followed by the next one [interval] after its
    send attempt ended. *)
Fixpoint fire_seq (t : Z) (atts : list attempt) : list Z :=
  match atts with
  | [] => []
  | a :: atts' => t :: fire_seq (t + att_duration a + REMINDER_INTERVAL) atts'
  end.

Lemma firing_times_app l1 l2 :
  firing_times (l1 ++ l2) = firing_times l1 ++ firing_times l2.
Proof. induction l1 as [|[] l1 IH]; simpl; rewrite ?IH; reflexivity. Qed.

Lemma run_timers_one t a atts :
  exists line,
  run_timers [t] (a :: atts) =
  [Fire t; Printed (t + att_duration a) line;
   TimerStart (t + att_duration a) (t + att_duration a + REMINDER_INTERVAL)]
  ++ run_timers [t + att_duration a + REMINDER_INTERVAL] atts.
Proof. eexists. reflexivity. Qed.

Lemma firing_times_run t atts :
  firing_times (run_timers [t] atts) = fire_seq t atts.
Proof.
  revert t. induction atts as [|a atts IH]; intros t; [reflexivity|].
  destruct (run_timers_one t a atts) as [line ->].
  rewrite firing_times_app, IH. reflexivity.
Qed.

Lemma firing_times_scheduler t0 atts :
  firing_times (scheduler t0 atts) = fire_seq (t0 + REMINDER_INTERVAL) atts.
Proof. unfold scheduler, start_timer. simpl. apply firing_times_run. Qed.

Lemma fire_seq_next t atts i ti a :
  nth_error (fire_seq t atts) i = Some ti -> nth_error atts i = Some a ->
  (S i < List.length atts)%nat ->
  nth_error (fire_seq t atts) (S i) = Some (ti + att_duration a + REMINDER_INTERVAL).
Proof.
  revert t i. induction atts as [|a0 atts IH]; intros t i Hf Ha Hl;
    [destruct i; discriminate|].
  destruct i as [|i]; simpl in *.
  - inversion Hf; inversion Ha; subst.
    destruct atts; [simpl in Hl; lia|reflexivity].
  - apply IH; auto. lia.
Qed.

Lemma fire_seq_ge t atts :
  Forall (fun a => 0 <= att_duration a) atts ->
  forall x, In x (fire_seq t atts) -> t <= x.
Proof.
  intros H. revert t. induction H as [|a atts Ha _ IH]; intros t x Hx; [contradiction|].
  destruct Hx as [<-|Hx]; [lia|]. apply IH in Hx. unfold REMINDER_INTERVAL in Hx. lia.
Qed.

Lemma run_timers_start_after_send t atts p s due :
  nth_error (run_timers [t] atts) p = Some (TimerStart s due) ->
  (1 <= p)%nat /\
  exists line, nth_error (run_timers [t] atts) (p - 1) = Some (Printed s line) /\
               due = s + REMINDER_INTERVAL.
Proof.
  revert t p. induction atts as [|a atts IH]; intros t p Hp; [destruct p; discriminate|].
  destruct (run_timers_one t a atts) as [line Heq]. rewrite Heq in *.
  destruct p as [|[|[|p]]]; simpl in Hp.
  - discriminate.
  - discriminate.
  - inversion Hp; subst. split; [lia|]. exists line. split; reflexivity.
  - destruct (IH _ _ Hp) as [Hge [line' [Hn Hd]]].
    split; [lia|]. exists line'. split; [|exact Hd].
    destruct p as [|p]; [lia|]. simpl. simpl in Hn. rewrite Nat.sub_0_r in Hn. exact Hn.
Qed.

(** C8 as stated fails: when a send takes 3 seconds, the next firing comes
    1803 seconds after the previous one, not 1800. *)
Lemma reminder_period_not_fixed :
  ~ (forall t0 atts i ti tj,
       nth_error (firing_times (scheduler t0 atts)) i = Some ti ->
       nth_error (firing_times (scheduler t0 atts)) (S i) = Some tj ->
       tj - ti = REMINDER_INTERVAL).
Proof.
  intros H.
  specialize (H 0 [mk_attempt 3 (Ok tt); mk_attempt 0 (Raise TelegramError)] 0%nat 1800 3603
                eq_refl eq_refl).
  vm_compute in H. discriminate H.
Qed.

(** C8 (as amended): the firing after the one at [t(i)] comes at
    [t(i) + d(i) + 30 min], [d(i)] being how long the send attempt at [t(i)]
    took, whatever its outcome. *)
Theorem reminder_next_firing (t0 : Z) (atts : list attempt) (i : nat) (ti : Z)
    (a : attempt)
    (Hti : nth_error (firing_times (scheduler t0 atts)) i = Some ti)
    (Ha : nth_error atts i = Some a)
    (Hnext : (S i < List.length atts)%nat) :
  nth_error (firing_times (scheduler t0 atts)) (S i) =
  Some (ti + att_duration a + REMINDER_INTERVAL).
Proof.
  rewrite firing_times_scheduler in *. apply fire_seq_next; assumption.
Qed.

Lemma reminder_next_firing_witness :
  let atts := [mk_attempt 3 (Raise TelegramError); mk_attempt 0 (Ok tt)] in
  nth_error (firing_times (scheduler 0 atts)) 0 = Some 1800 /\
  nth_error atts 0 = Some (mk_attempt 3 (Raise TelegramError)) /\
  (1 < List.length atts)%nat /\
  nth_error (firing_times (scheduler 0 atts)) 1 = Some (1800 + 3 + REMINDER_INTERVAL).
Proof.
  intros atts.
  assert (H1 : nth_error (firing_times (scheduler 0 atts)) 0 = Some 1800) by reflexivity.
  assert (H2 : nth_error atts 0 = Some (mk_attempt 3 (Raise TelegramError))) by reflexivity.
  assert (H3 : (1 < List.length atts)%nat) by (simpl; lia).
  split; [exact H1|]. split; [exact H2|]. split; [exact H3|].
  exact (reminder_next_firing 0 atts 0 1800 _ H1 H2 H3).
Defined.

(** C10: starting the scheduler at [t0] sends nothing at once: the trace
    starts with the timer start, the first firing is at [t0 + 30 min] and
    none is earlier; and every later timer start comes right after the
    completion line of the send attempt, at its completion time, due one
    interval later. *)
Theorem first_reminder_after_interval (t0 : Z) (atts : list attempt)
    (Hdur : Forall (fun a => 0 <= att_duration a) atts) :
  hd_error (scheduler t0 atts) = Some (TimerStart t0 (t0 + REMINDER_INTERVAL)) /\
  (atts <> [] -> hd_error (firing_times (scheduler t0 atts)) = Some (t0 + REMINDER_INTERVAL)) /\
  (forall t, In t (firing_times (scheduler t0 atts)) -> t0 + REMINDER_INTERVAL <= t) /\
  (forall p s due, (0 < p)%nat ->
     nth_error (scheduler t0 atts) p = Some (TimerStart s due) ->
     exists line, nth_error (scheduler t0 atts) (p - 1) = Some (Printed s line) /\
                  due = s + REMINDER_INTERVAL).
Proof.
  split; [reflexivity|].
  split; [intros Hne; rewrite firing_times_scheduler; destruct atts; [contradiction|reflexivity]|].
  split; [intros t Ht; rewrite firing_times_scheduler in Ht; exact (fire_seq_ge _ _ Hdur t Ht)|].
  intros p s due Hp Hn. unfold scheduler, start_timer in *.
  destruct p as [|q]; [lia|]. simpl in Hn.
  destruct (run_timers_start_after_send _ _ _ _ _ Hn) as [Hq [line [Hl Hd]]].
  exists line. split; [|exact Hd].
  destruct q as [|q]; [lia|]. simpl. simpl in Hl. rewrite Nat.sub_0_r in Hl. exact Hl.
Qed.

Lemma first_reminder_after_interval_witness :
  Forall (fun a => 0 <= att_duration a) [mk_attempt 2 (Ok tt)] /\
  hd_error (firing_times (scheduler 100 [mk_attempt 2 (Ok tt)])) =
  Some (100 + REMINDER_INTERVAL).
Proof.
  assert (H : Forall (fun a => 0 <= att_duration a) [mk_attempt 2 (Ok tt)])
    by (repeat constructor; simpl; lia).
  split; [exact H|].
  apply (proj1 (proj2 (first_reminder_after_interval 100 _ H))). discriminate.
Defined.

End ReminderFacts.

(** * Further properties of the code *)

Module Extra.

(** ** The per-transaction check *)

Definition same_up_to_case (o o' : option string) : Prop :=
  match o, o' with
  | None, None => True
  | Some a, Some a' => lower a = lower a'
  | _, _ => False
  end.

Lemma lower_empty (a : string) : lower a = EmptyString <-> a = EmptyString.
Proof. destruct a; simpl; split; intro H; (reflexivity || discriminate). Qed.

(** The check sees the recipient and the watched address only through their
    lower-cased forms: changing the case of either never changes it. *)
Theorem evaluate_case_insensitive (token token' : string) (t t' : tx)
    (Htok : lower token = lower token')
    (Hto : same_up_to_case (tx_to t) (tx_to t'))
    (Hfrom : tx_from t = tx_from t') (Hval : tx_value t = tx_value t')
    (Hhash : tx_hash t = tx_hash t') :
  evaluate token t = evaluate token' t'.
Proof.
  unfold evaluate. rewrite Htok, Hfrom, Hval, Hhash.
  destruct (tx_to t) as [a|], (tx_to t') as [a'|]; simpl in Hto; try contradiction;
    [|reflexivity].
  assert (He : String.eqb a EmptyString = String.eqb a' EmptyString).
  { destruct (String.eqb_spec a EmptyString) as [H|H],
             (String.eqb_spec a' EmptyString) as [H'|H']; try reflexivity.
    - exfalso. apply H'. apply lower_empty. rewrite <- Hto. subst. reflexivity.
    - exfalso. apply H. apply lower_empty. rewrite Hto. subst. reflexivity. }
  simpl. rewrite He, Hto. reflexivity.
Qed.

Lemma evaluate_case_insensitive_witness :
  lower "0xAbCd"%string = lower "0xABCD"%string /\
  same_up_to_case (Some "0xABCD"%string) (Some "0xabcd"%string) /\
  evaluate "0xAbCd"%string (mk_tx "0x1"%string (Some "0xABCD"%string) 30000000000000000 "0xh"%string) =
  evaluate "0xABCD"%string (mk_tx "0x1"%string (Some "0xabcd"%string) 30000000000000000 "0xh"%string).
Proof.
  assert (H1 : lower "0xAbCd"%string = lower "0xABCD"%string) by reflexivity.
  assert (H2 : same_up_to_case (Some "0xABCD"%string) (Some "0xabcd"%string))
    by reflexivity.
  split; [exact H1|]. split; [exact H2|].
  exact (evaluate_case_insensitive _ _ (mk_tx "0x1"%string (Some "0xABCD"%string) 30000000000000000 "0xh"%string)
           (mk_tx "0x1"%string (Some "0xabcd"%string) 30000000000000000 "0xh"%string)
           H1 H2 eq_refl eq_refl eq_refl).
Defined.

(** The check raises only [ValueError], and only for a transaction sent to
    the watched address whose value lies outside [0, 2^256 - 1]; the value
    of any other transaction is never converted. *)
Theorem evaluate_raises_only_out_of_range (token : string) (t : tx) (e : exn)
    (Hr : evaluate token t = Raise e) :
  e = ValueError /\
  (exists a, tx_to t = Some a /\ a <> EmptyString /\ lower a = lower token) /\
  (tx_value t < 0 \/ MAX_WEI < tx_value t).
Proof.
  unfold evaluate in Hr.
  destruct (tx_to t) as [a|] eqn:Hto; [|discriminate]. simpl in Hr.
  destruct (String.eqb_spec a EmptyString) as [Ha|Ha]; [discriminate|]. simpl in Hr.
  destruct (String.eqb (lower a) (lower token)) eqn:Hl; [|discriminate].
  apply lower_eqb_spec in Hl.
  unfold fromWei in Hr.
  destruct (tx_value t =? 0); [discriminate|].
  destruct (Z.ltb_spec (tx_value t) 0), (Z.ltb_spec MAX_WEI (tx_value t)); simpl in Hr.
  - inversion Hr. split; [reflexivity|]. split; [eauto|]. lia.
  - inversion Hr. split; [reflexivity|]. split; [eauto|]. lia.
  - inversion Hr. split; [reflexivity|]. split; [eauto|]. lia.
  - destruct (py_ge _ _); discriminate.
Qed.

Lemma evaluate_raises_only_out_of_range_witness :
  evaluate "0xab"%string (mk_tx "0x1"%string (Some "0xAB"%string) (-1) "0xh"%string) = Raise ValueError /\
  (tx_value (mk_tx "0x1"%string (Some "0xAB"%string) (-1) "0xh"%string) < 0 \/
   MAX_WEI < tx_value (mk_tx "0x1"%string (Some "0xAB"%string) (-1) "0xh"%string)).
Proof.
  assert (H : evaluate "0xab"%string (mk_tx "0x1"%string (Some "0xAB"%string) (-1) "0xh"%string)
              = Raise ValueError) by reflexivity.
  split; [exact H|].
  exact (proj2 (proj2 (evaluate_raises_only_out_of_range _ _ _ H))).
Defined.

(** ** Blocks *)

(** Called where no asyncio event loop runs, [handle_new_block] makes one
    send call per qualifying transaction of the fetched block, in block
    order, and returns normally. *)
Theorem handle_new_block_outside_loop (E : env) (n : Z) (txs : list tx)
    (Hf : get_block E n = Ok txs)
    (Hr : Forall (fun t => 0 <= tx_value t <= MAX_WEI) txs) :
  snd (handle_new_block E false n) = Ok tt /\
  sent_alerts (fst (handle_new_block E false n)) =
  qualifying_hashes (TOKEN_CONTRACT_ADDRESS E) txs.
Proof.
  destruct (process_txs_outside_loop_alerts E txs Hr) as [H1 H2].
  unfold handle_new_block. rewrite Hf, bind_lift_ok, bind_emit.
  destruct (process_txs E false txs) as [tr r]. simpl in *. subst r.
  split; [reflexivity|]. exact H2.
Qed.

Lemma handle_new_block_outside_loop_witness :
  let q1 := mk_tx "0xb1"%string (Some "0xAB"%string) 30000000000000000 "0xh1"%string in
  let q2 := mk_tx "0xb2"%string (Some "0xcd"%string) 40000000000000000 "0xh2"%string in
  let q3 := mk_tx "0xb3"%string (Some "0xab"%string) 50000000000000000 "0xh3"%string in
  let E := mk_env "0xab"%string (fun _ => Ok [q1; q2; q3]) (fun _ => Raise TelegramError)
                  (fun _ => Ok tt) in
  get_block E 9 = Ok [q1; q2; q3] /\
  Forall (fun t => 0 <= tx_value t <= MAX_WEI) [q1; q2; q3] /\
  sent_alerts (fst (handle_new_block E false 9)) = ["0xh1"%string; "0xh3"%string].
Proof.
  intros q1 q2 q3 E.
  assert (H1 : get_block E 9 = Ok [q1; q2; q3]) by reflexivity.
  assert (H2 : Forall (fun t => 0 <= tx_value t <= MAX_WEI) [q1; q2; q3])
    by (repeat constructor; vm_compute; discriminate).
  split; [exact H1|]. split; [exact H2|].
  rewrite (proj2 (handle_new_block_outside_loop E 9 _ H1 H2)). reflexivity.
Defined.


(** ** The listener *)

(** The receive loop never raises: errors of a header's processing and of
    receiving are all absorbed. *)
Theorem receive_loop_returns (E : env) (rs : list recv) : snd (receive_loop E rs) = Ok tt.
Proof.
  induction rs as [|[n|e|] rs IH]; simpl receive_loop; try reflexivity.
  - rewrite snd_bind, snd_try, handle_new_block_returns. exact IH.
  - destruct (receive_loop E rs) as [t r]. exact IH.
Qed.

(** After a cancellation the loop stops: nothing received later is
    processed, and the trace ends with the cancellation line. *)
Theorem receive_loop_stops_at_cancel (E : env) (rs1 rs2 : list recv) :
  receive_loop E (rs1 ++ RecvCancelled :: rs2) = receive_loop E (rs1 ++ [RecvCancelled]) /\
  exists tr, fst (receive_loop E (rs1 ++ RecvCancelled :: rs2)) = tr ++ [EvCancelled].
Proof.
  induction rs1 as [|[n|e|] rs1 [IH [tr Htr]]].
  - split; [reflexivity|]. exists []. reflexivity.
  - simpl. rewrite IH. split; [reflexivity|].
    rewrite IH in Htr. rewrite fst_bind. rewrite snd_try, handle_new_block_returns.
    exists (fst (try_except (handle_new_block E true n)
                   (fun e => emit (EvRecvError e) ;; emit (EvSleep 2))) ++ tr).
    rewrite Htr, app_assoc. reflexivity.
  - simpl. rewrite IH. split; [reflexivity|].
    rewrite IH in Htr. destruct (receive_loop E (rs1 ++ [RecvCancelled])) as [t r].
    simpl in *. exists (EvRecvError e :: EvSleep 2 :: tr). rewrite Htr. reflexivity.
  - split; [reflexivity|]. exists []. reflexivity.
Qed.

Fixpoint count_sleeps (s : Z) (tr : list event) : nat :=
  match tr with
  | [] => O
  | EvSleep s' :: tr' => if s =? s' then S (count_sleeps s tr') else count_sleeps s tr'
  | _ :: tr' => count_sleeps s tr'
  end.

Lemma count_sleeps_app s l1 l2 :
  count_sleeps s (l1 ++ l2) = (count_sleeps s l1 + count_sleeps s l2)%nat.
Proof.
  induction l1 as [|[] l1 IH]; simpl; try rewrite IH; try reflexivity.
  destruct (s =? seconds); simpl; rewrite ?IH; reflexivity.
Qed.

(** The receive errors before the first cancellation. *)
Fixpoint recv_errors (rs : list recv) : nat :=
  match rs with
  | [] => O
  | RecvError _ :: rs' => S (recv_errors rs')
  | RecvHeader _ :: rs' => recv_errors rs'
  | RecvCancelled :: _ => O
  end.

Lemma process_tx_no_sleep (E : env) b t s : count_sleeps s (fst (process_tx E b t)) = O.
Proof.
  unfold process_tx. destruct (evaluate _ t) as [[[[h v] buyer]|]|e]; try reflexivity.
  destruct b; [reflexivity|]. cbn [asyncio_run]. rewrite bind_emit, send_telegram_alert_eq.
  destruct (send_photo E h); reflexivity.
Qed.

Lemma handle_new_block_no_sleep (E : env) b n s :
  count_sleeps s (fst (handle_new_block E b n)) = O.
Proof.
  unfold handle_new_block. destruct (get_block E n) as [txs|e]; [|reflexivity].
  rewrite bind_lift_ok, bind_emit. rewrite fst_try, count_sleeps_app. simpl.
  assert (H : count_sleeps s (fst (process_txs E b txs)) = O).
  { induction txs as [|t ts IH]; [reflexivity|]. simpl process_txs.
    rewrite fst_bind, count_sleeps_app, process_tx_no_sleep.
    destruct (snd (process_tx E b t)); [exact IH|reflexivity]. }
  rewrite H. destruct (snd (process_txs E b txs)); reflexivity.
Qed.

(** The 2-second pause of the loop follows receive errors only: there are
    exactly as many pauses as receive errors before the first
    cancellation (the [except] path for a header's processing is never
    taken, since [handle_new_block] catches everything). *)
Theorem receive_loop_pauses (E : env) (rs : list recv) :
  count_sleeps 2 (fst (receive_loop E rs)) = recv_errors rs.
Proof.
  induction rs as [|[n|e|] rs IH]; simpl receive_loop; try reflexivity.
  - rewrite fst_bind, count_sleeps_app, fst_try, count_sleeps_app, snd_try,
      handle_new_block_returns, handle_new_block_no_sleep. simpl. exact IH.
  - destruct (receive_loop E rs) as [t r]. simpl in *. exact (f_equal S IH).
Qed.

(** Once the subscription is established, the listener never connects
    again: the run has exactly one connection attempt and returns normally,
    whatever happens while receiving. *)
Theorem listener_connected_once (E : env) (fuel attempt : nat) (rs : list recv)
    (Hc : connect E attempt = Ok tt) :
  listen_for_new_blocks E (S fuel) attempt rs =
  (EvConnecting attempt :: fst (receive_loop E rs), Ok tt).
Proof.
  cbn [listen_for_new_blocks]. rewrite bind_emit, Hc, bind_lift_ok.
  pose proof (receive_loop_returns E rs) as H.
  destruct (receive_loop E rs) as [t r]. simpl in *. subst r. reflexivity.
Qed.

Lemma listener_connected_once_witness :
  let E := mk_env "0xab"%string (fun _ => Raise ConnectionError) (fun _ => Ok tt)
                  (fun _ => Ok tt) in
  connect E 0 = Ok tt /\
  listen_for_new_blocks E 4 0 [RecvError ConnectionError; RecvHeader 1] =
  (EvConnecting 0 :: fst (receive_loop E [RecvError ConnectionError; RecvHeader 1]), Ok tt).
Proof.
  intros E. split; [reflexivity|].
  exact (listener_connected_once E 3 0 _ eq_refl).
Defined.

End Extra.

Module ExtraReminder.
Import Reminder ReminderFacts.

Lemma fire_seq_length t atts : List.length (fire_seq t atts) = List.length atts.
Proof.
  revert t. induction atts as [|a atts IH]; intros t; simpl; [reflexivity|]. rewrite IH. reflexivity.
Qed.

(** The reminder never stops: every send attempt, successful or not, is
    followed by the next timer, so the scheduler fires once per attempt. *)
Theorem reminder_fires_for_every_attempt (t0 : Z) (atts : list attempt) :
  List.length (firing_times (scheduler t0 atts)) = List.length atts.
Proof. rewrite firing_times_scheduler. apply fire_seq_length. Qed.

Lemma fire_seq_gap t atts :
  Forall (fun a => 0 <= att_duration a) atts ->
  forall i ti tj, nth_error (fire_seq t atts) i = Some ti ->
  nth_error (fire_seq t atts) (S i) = Some tj -> ti + REMINDER_INTERVAL <= tj.
Proof.
  intros H. revert t. induction H as [|a atts Ha _ IH]; intros t i ti tj Hi Hj;
    [destruct i; discriminate|].
  destruct i as [|i]; simpl in Hi, Hj.
  - inversion Hi; subst. destruct atts as [|a' atts]; [discriminate|].
    simpl in Hj. inversion Hj. lia.
  - exact (IH _ i ti tj Hi Hj).
Qed.

(** With send attempts of non-negative duration, consecutive reminders are
    at least 30 minutes apart. *)
Theorem reminders_at_least_interval_apart (t0 : Z) (atts : list attempt)
    (Hdur : Forall (fun a => 0 <= att_duration a) atts)
    (i : nat) (ti tj : Z)
    (Hi : nth_error (firing_times (scheduler t0 atts)) i = Some ti)
    (Hj : nth_error (firing_times (scheduler t0 atts)) (S i) = Some tj) :
  ti + REMINDER_INTERVAL <= tj.
Proof.
  rewrite firing_times_scheduler in *. exact (fire_seq_gap _ _ Hdur i ti tj Hi Hj).
Qed.

Lemma reminders_at_least_interval_apart_witness :
  let atts := [mk_attempt 5 (Ok tt); mk_attempt 1 (Raise OtherError)] in
  Forall (fun a => 0 <= att_duration a) atts /\
  nth_error (firing_times (scheduler 0 atts)) 0 = Some 1800 /\
  nth_error (firing_times (scheduler 0 atts)) 1 = Some 3605 /\
  1800 + REMINDER_INTERVAL <= 3605.
Proof.
  intros atts.
  assert (H0 : Forall (fun a => 0 <= att_duration a) atts)
    by (repeat constructor; simpl; lia).
  assert (H1 : nth_error (firing_times (scheduler 0 atts)) 0 = Some 1800) by reflexivity.
  assert (H2 : nth_error (firing_times (scheduler 0 atts)) 1 = Some 3605) by reflexivity.
  split; [exact H0|]. split; [exact H1|]. split; [exact H2|].
  exact (reminders_at_least_interval_apart 0 atts H0 0 1800 3605 H1 H2).
Defined.

(** Each firing prints exactly one outcome line, chosen by the outcome:
    success, a Telegram error, or any other exception. *)
Fixpoint printed_lines (tr : list rem_event) : list string :=
  match tr with
  | [] => []
  | Printed _ s :: tr' => s :: printed_lines tr'
  | _ :: tr' => printed_lines tr'
  end.

Definition outcome_line (o : res unit) : string :=
  match o with
  | Ok _ => "Sent 30-minute reminder."%string
  | Raise TelegramError => "Error sending reminder"%string
  | Raise _ => "An unexpected error occurred in send_reminder"%string
  end.

Lemma printed_lines_app l1 l2 :
  printed_lines (l1 ++ l2) = printed_lines l1 ++ printed_lines l2.
Proof. induction l1 as [|[] l1 IH]; simpl; rewrite ?IH; reflexivity. Qed.

Theorem reminder_one_line_per_firing (t0 : Z) (atts : list attempt) :
  printed_lines (scheduler t0 atts) = map (fun a => outcome_line (att_outcome a)) atts.
Proof.
  unfold scheduler, start_timer. simpl.
  generalize (t0 + REMINDER_INTERVAL). induction atts as [|a atts IH]; intros t; [reflexivity|].
  simpl run_timers. unfold send_reminder, start_timer. simpl.
  rewrite IH. destruct (att_outcome a) as [u|[]]; reflexivity.
Qed.

End ExtraReminder.

Module ExtraBootstrap.
Import Bootstrap BootstrapFacts.

(** With every variable set and the [Bot] built, the script exits with
    status 1 and starts nothing when the HTTP provider is not connected;
    otherwise it starts the reminder timer, then the listener, and ends as
    the listener's run ends. *)
Theorem complete_config_startup (cfg : config) (bot_ctor : option string -> res unit)
    (is_connected : res bool) (listener : option (res unit))
    (Hcfg : missing_vars cfg = [])
    (Hbot : bot_ctor (TELEGRAM_BOT_TOKEN cfg) = Ok tt) :
  (is_connected = Ok true ->
   snd (main cfg bot_ctor is_connected listener) = exit_status listener /\
   exists pre mid post,
     fst (main cfg bot_ctor is_connected listener) =
     pre ++ StartReminderTimer :: mid ++ StartListener :: post) /\
  (is_connected <> Ok true ->
   snd (main cfg bot_ctor is_connected listener) = Some 1 /\
   ~ In StartReminderTimer (fst (main cfg bot_ctor is_connected listener)) /\
   ~ In StartListener (fst (main cfg bot_ctor is_connected listener))).
Proof.
  apply missing_vars_nil in Hcfg.
  unfold main. rewrite Hbot, Hcfg. simpl negb. cbv iota.
  split.
  - intros ->. split; [reflexivity|].
    exists [Print "Bot is starting..."%string; Print "Starting 30-minute reminder timer..."%string],
           [Print "Starting blockchain listener..."%string], [].
    reflexivity.
  - intros Hn. destruct is_connected as [[]|e]; [contradiction|..];
      (split; [reflexivity|]); split; intros [H|[H|[]]]; discriminate.
Qed.

Lemma complete_config_startup_witness :
  let cfg := mk_config (Some "tok"%string) (Some "-100"%string)
                       (Some "wss://node"%string) (Some "0x2119"%string) in
  missing_vars cfg = [] /\
  snd (main cfg (fun _ => Ok tt) (Ok false) None) = Some 1 /\
  snd (main cfg (fun _ => Ok tt) (Ok true) (Some (Ok tt))) = Some 0.
Proof.
  intros cfg.
  assert (H : missing_vars cfg = []) by reflexivity.
  split; [exact H|]. split.
  - exact (proj1 (proj2 (complete_config_startup cfg (fun _ => Ok tt) (Ok false) None H eq_refl)
                   ltac:(discriminate))).
  - exact (proj1 (proj1 (complete_config_startup cfg (fun _ => Ok tt) (Ok true) (Some (Ok tt))
                          H eq_refl) eq_refl)).
Defined.

(** Whatever the configuration and outcomes, the listener is started only
    after the reminder timer, and a run that starts it ends as the
    listener's run ends. *)
Theorem listener_after_timer (cfg : config) (bot_ctor : option string -> res unit)
    (is_connected : res bool) (listener : option (res unit)) :
  In StartListener (fst (main cfg bot_ctor is_connected listener)) ->
  snd (main cfg bot_ctor is_connected listener) = exit_status listener /\
  exists pre mid post,
    fst (main cfg bot_ctor is_connected listener) =
    pre ++ StartReminderTimer :: mid ++ StartListener :: post.
Proof.
  unfold main. destruct (bot_ctor _); [|intros []].
  destruct (negb _); [intros [H|[H|[]]]; discriminate|].
  destruct is_connected as [[]|e].
  - intros _. split; [reflexivity|].
    exists [Print "Bot is starting..."%string; Print "Starting 30-minute reminder timer..."%string],
           [Print "Starting blockchain listener..."%string], [].
    reflexivity.
  - intros [H|[H|[]]]; discriminate.
  - intros [H|[H|[]]]; discriminate.
Qed.

Lemma listener_after_timer_witness :
  let cfg := mk_config (Some "tok"%string) (Some "-100"%string)
                       (Some "wss://node"%string) (Some "0x2119"%string) in
  In StartListener (fst (main cfg (fun _ => Ok tt) (Ok true) (Some (Raise RuntimeError)))) /\
  snd (main cfg (fun _ => Ok tt) (Ok true) (Some (Raise RuntimeError))) = Some 1.
Proof.
  intros cfg.
  assert (H : In StartListener
                (fst (main cfg (fun _ => Ok tt) (Ok true) (Some (Raise RuntimeError)))))
    by (simpl; tauto).
  split; [exact H|]. exact (proj1 (listener_after_timer _ _ _ _ H)).
Defined.

(** With every variable set and the HTTP provider connected, a failed
    first websocket connection ends the whole script with status 1, after
    the reminder timer and the listener were started: the listener's retry
    [asyncio.run(listen_for_new_blocks())] raises [RuntimeError] inside the
    running loop, and nothing catches it. *)
Theorem script_exits_on_connection_failure (cfg : config)
    (bot_ctor : option string -> res unit) (E : env) (fuel : nat) (rs : list recv)
    (e : exn)
    (Hcfg : missing_vars cfg = [])
    (Hbot : bot_ctor (TELEGRAM_BOT_TOKEN cfg) = Ok tt)
    (Hc : connect E 0 = Raise e) :
  let run := main cfg bot_ctor (Ok true)
               (Some (snd (asyncio_run false (listen_for_new_blocks E (S fuel) 0 rs)))) in
  snd run = Some 1 /\ In StartReminderTimer (fst run) /\ In StartListener (fst run).
Proof.
  intros run.
  assert (Hl : snd (asyncio_run false (listen_for_new_blocks E (S fuel) 0 rs)) = Raise RuntimeError).
  { unfold asyncio_run. cbn [listen_for_new_blocks]. rewrite Hc. reflexivity. }
  unfold run. rewrite Hl.
  apply missing_vars_nil in Hcfg.
  unfold main. rewrite Hbot, Hcfg. simpl negb. cbv iota.
  split; [reflexivity|]. simpl. tauto.
Qed.

Lemma script_exits_on_connection_failure_witness :
  let cfg := mk_config (Some "tok"%string) (Some "-100"%string)
                       (Some "wss://node"%string) (Some "0x2119"%string) in
  let E := mk_env "0x2119"%string (fun _ => Ok []) (fun _ => Ok tt)
                  (fun _ => Raise ConnectionError) in
  missing_vars cfg = [] /\ connect E 0 = Raise ConnectionError /\
  snd (main cfg (fun _ => Ok tt) (Ok true)
         (Some (snd (asyncio_run false (listen_for_new_blocks E 3 0 []))))) = Some 1.
Proof.
  intros cfg E.
  assert (H1 : missing_vars cfg = []) by reflexivity.
  assert (H2 : connect E 0 = Raise ConnectionError) by reflexivity.
  split; [exact H1|]. split; [exact H2|].
  exact (proj1 (script_exits_on_connection_failure cfg (fun _ => Ok tt) E 2 [] ConnectionError
                  H1 eq_refl H2)).
Defined.

End ExtraBootstrap.

Module AlertTextFacts.
Import AlertText.

Lemma substring_app_prefix (a b : string) :
  substring 0 (String.length a) (a ++ b) = a.
Proof. induction a as [|c a IH]; simpl; [destruct b; reflexivity|]. rewrite IH. reflexivity. Qed.

Lemma substring_app_shift (a b : string) m k :
  substring (String.length a + m) k (a ++ b) = substring m k b.
Proof. induction a as [|c a IH]; simpl; [reflexivity|]. exact IH. Qed.

Lemma substring_whole (s : string) k :
  (String.length s <= k)%nat -> substring 0 k s = s.
Proof.
  revert k. induction s as [|c s IH]; intros k Hk; [destruct k; reflexivity|].
  destruct k as [|k]; simpl in Hk; [lia|]. simpl. rewrite IH; [reflexivity|lia].
Qed.

Lemma str_app_assoc (a b c : string) : ((a ++ b) ++ c)%string = (a ++ (b ++ c))%string.
Proof. induction a; simpl; congruence. Qed.

Lemma str_app_nil_r (a : string) : (a ++ EmptyString)%string = a.
Proof. induction a; simpl; congruence. Qed.

Lemma length_app (a b : string) :
  String.length (a ++ b) = (String.length a + String.length b)%nat.
Proof. induction a; simpl; congruence. Qed.

(** The buyer is shown as the first six and the last four characters of
    the address around "..."; an address of at most four characters is
    shown twice. *)
Theorem buyer_text_shape :
  (forall pre mid suf : string,
     String.length pre = 6%nat -> String.length suf = 4%nat ->
     buyer_text (pre ++ mid ++ suf) = (pre ++ "..." ++ suf)%string) /\
  (forall s : string, (String.length s <= 4)%nat ->
     buyer_text s = (s ++ "..." ++ s)%string).
Proof.
  split.
  - intros pre mid suf Hp Hs. unfold buyer_text, py_prefix, py_suffix.
    rewrite <- Hp at 1. rewrite substring_app_prefix.
    rewrite !length_app, Hp, Hs.
    destruct (Nat.leb_spec 4 (6 + (String.length mid + 4))) as [_|H]; [|lia].
    replace (6 + (String.length mid + 4) - 4)%nat with (String.length (pre ++ mid) + 0)%nat
      by (rewrite length_app; lia).
    rewrite <- (str_app_assoc pre mid suf), substring_app_shift.
    rewrite substring_whole by lia. reflexivity.
  - intros s Hs. unfold buyer_text, py_prefix, py_suffix.
    rewrite substring_whole by lia.
    destruct (Nat.leb_spec 4 (String.length s)); [|reflexivity].
    replace (String.length s - 4)%nat with 0%nat by lia.
    rewrite substring_whole by lia. reflexivity.
Qed.

End AlertTextFacts.

Module AmountFacts.
Import AlertText.

Lemma digit_cases (d : Z) : 0 <= d < 10 ->
  d = 0 \/ d = 1 \/ d = 2 \/ d = 3 \/ d = 4 \/ d = 5 \/ d = 6 \/ d = 7 \/ d = 8 \/ d = 9.
Proof. lia. Qed.

Lemma char_digit_digit_char (d : Z) : 0 <= d < 10 ->
  char_digit (digit_char d) = Some d /\ Ascii.eqb (digit_char d) "." = false.
Proof.
  intros H. destruct (digit_cases d H) as [->|[->|[->|[->|[->|[->|[->|[->|[->| ->]]]]]]]]];
    split; vm_compute; reflexivity.
Qed.

Lemma parse_digit_step (d : Z) (s : string) (a : Z) : 0 <= d < 10 ->
  parse_fixed3 (String (digit_char d) s) a = parse_fixed3 s (10 * a + d).
Proof.
  intros H. destruct (char_digit_digit_char d H) as [H1 H2].
  cbn [parse_fixed3]. rewrite H2, H1. reflexivity.
Qed.

Lemma parse_dec_digits (fuel : nat) : forall (n : Z) (acc : string),
  0 <= n < 10 ^ Z.of_nat fuel ->
  parse_fixed3 (dec_digits fuel n acc) 0 = parse_fixed3 acc n.
Proof.
  induction fuel as [|f IH]; intros n acc Hn.
  { simpl in Hn. replace n with 0 by lia. reflexivity. }
  assert (Hm : 0 <= n mod 10 < 10) by (apply Z.mod_pos_bound; lia).
  assert (Hd : n = 10 * (n / 10) + n mod 10) by (apply Z.div_mod; lia).
  simpl dec_digits. destruct (Z.eqb_spec (n / 10) 0) as [Hz|Hz].
  - rewrite parse_digit_step by exact Hm. f_equal. lia.
  - rewrite IH.
    + rewrite parse_digit_step by exact Hm. f_equal. lia.
    + split; [apply Z.div_pos; lia|].
      apply Z.div_lt_upper_bound; [lia|].
      rewrite Nat2Z.inj_succ, Z.pow_succ_r in Hn by lia. lia.
Qed.

Lemma digits_fuel_enough (n : Z) : 0 <= n -> n < 10 ^ Z.of_nat (digits_fuel n).
Proof.
  intros Hn. unfold digits_fuel.
  rewrite Nat2Z.inj_succ, Z2Nat.id by apply Z.log2_nonneg.
  destruct (Z.eq_dec n 0) as [->|Hn0]; [reflexivity|].
  destruct (Z.log2_spec n) as [_ H]; [lia|].
  apply Z.lt_le_trans with (1 := H).
  apply Z.pow_le_mono_l. lia.
Qed.

Lemma round_half_even_spec (a b : Z) : 0 <= a -> 0 < b ->
  0 <= round_half_even a b /\
  (Z.abs (a - round_half_even a b * b) * 2 < b \/
   (Z.abs (a - round_half_even a b * b) * 2 = b /\ Z.even (round_half_even a b) = true)).
Proof.
  intros Ha Hb. unfold round_half_even.
  assert (Hd : a = b * (a / b) + a mod b) by (apply Z.div_mod; lia).
  assert (Hm : 0 <= a mod b < b) by (apply Z.mod_pos_bound; lia).
  assert (Hq : 0 <= a / b) by (apply Z.div_pos; lia).
  set (q := a / b) in *. set (r := a mod b) in *.
  assert (E0 : a - q * b = r) by lia.
  assert (E1 : a - (q + 1) * b = - (b - r)) by lia.
  destruct (Z.ltb_spec (2 * r) b).
  - split; [lia|]. left. rewrite E0, Z.abs_eq by lia. lia.
  - destruct (Z.ltb_spec b (2 * r)).
    + split; [lia|]. left. rewrite E1, Z.abs_opp, Z.abs_eq by lia. lia.
    + destruct (Z.even q) eqn:Hev.
      * split; [lia|]. right. rewrite E0, Z.abs_eq by lia. split; [lia | exact Hev].
      * split; [lia|]. right. rewrite E1, Z.abs_opp, Z.abs_eq by lia. split; [lia|].
        rewrite Z.even_add, Hev. reflexivity.
Qed.

(** The [.3f] text of an alert's amount reads back as the number of
    thousandths nearest to the exact value, the even one at a tie
    (Decimal's default [ROUND_HALF_EVEN]). *)
Theorem amount_text_reads_back (n d : Z) (Hn : 0 <= n) (Hd : 0 < d) :
  exists q, parse_fixed3 (amount_text (PyDecimal n d)) 0 = Some q /\ 0 <= q /\
            (Z.abs (1000 * n - q * d) * 2 < d \/
             (Z.abs (1000 * n - q * d) * 2 = d /\ Z.even q = true)).
Proof.
  unfold amount_text, pynum_frac, format_3f.
  rewrite Z.abs_eq by exact Hn.
  destruct (Z.ltb_spec n 0) as [H|_]; [lia|].
  destruct (round_half_even_spec (1000 * n) d ltac:(lia) Hd) as [Hq Hb].
  set (q := round_half_even (1000 * n) d) in *.
  exists q. split; [|split; assumption].
  assert (Hr : 0 <= q mod 1000 < 1000) by (apply Z.mod_pos_bound; lia).
  assert (Hqd : q = 1000 * (q / 1000) + q mod 1000) by (apply Z.div_mod; lia).
  assert (Hip : 0 <= q / 1000) by (apply Z.div_pos; lia).
  set (r := q mod 1000) in *. set (ip := q / 1000) in *.
  cbn [String.append].
  rewrite parse_dec_digits by (split; [exact Hip | apply digits_fuel_enough; exact Hip]).
  assert (H10 : r = 10 * (r / 10) + r mod 10) by (apply Z.div_mod; lia).
  assert (H100 : r / 10 = 10 * (r / 10 / 10) + r / 10 mod 10) by (apply Z.div_mod; lia).
  rewrite Z.div_div in H100 by lia. change (10 * 10) with 100 in H100.
  assert (B1 : 0 <= r / 100 < 10)
    by (split; [apply Z.div_pos; lia | apply Z.div_lt_upper_bound; lia]).
  assert (B2 : 0 <= r / 10 mod 10 < 10) by (apply Z.mod_pos_bound; lia).
  assert (B3 : 0 <= r mod 10 < 10) by (apply Z.mod_pos_bound; lia).
  cbn [parse_fixed3]. rewrite (proj2 (char_digit_digit_char _ B1)).
  change (Ascii.eqb "." ".") with true. cbv iota.
  unfold parse_frac3.
  rewrite (proj1 (char_digit_digit_char _ B1)), (proj1 (char_digit_digit_char _ B2)),
          (proj1 (char_digit_digit_char _ B3)).
  f_equal. lia.
Qed.

(** At the tie 0.0305 the text is "0.030": 30 thousandths, the even
    neighbour. *)
Lemma amount_text_reads_back_witness :
  0 <= 305 /\ 0 < 10000 /\
  amount_text (PyDecimal 305 10000) = "0.030"%string /\
  exists q, parse_fixed3 (amount_text (PyDecimal 305 10000)) 0 = Some q /\ 0 <= q /\
            (Z.abs (1000 * 305 - q * 10000) * 2 < 10000 \/
             (Z.abs (1000 * 305 - q * 10000) * 2 = 10000 /\ Z.even q = true)).
Proof.
  assert (H1 : 0 <= 305) by lia.
  assert (H2 : 0 < 10000) by lia.
  split; [exact H1|]. split; [exact H2|]. split; [vm_compute; reflexivity|].
  exact (amount_text_reads_back _ _ H1 H2).
Defined.

End AmountFacts.

Module UrlFacts.
Import HttpUrl.

Lemma prefix_app (a b : string) : String.prefix a (a ++ b) = true.
Proof.
  induction a as [|c a IH]; [destruct b; reflexivity|]. simpl.
  destruct (ascii_dec c c); [exact IH | contradiction].
Qed.

Lemma substring_length_le (n m : nat) (s : string) :
  (String.length (substring n m s) <= m)%nat.
Proof.
  revert n m. induction s as [|c s IH]; intros [|n] [|m]; simpl; try lia.
  - specialize (IH 0%nat m). lia.
  - apply IH.
  - apply IH.
Qed.

Lemma replace_fuel_absent (fuel : nat) : forall (old new s : string),
  py_contains old s = false -> py_replace_fuel fuel old new s = s.
Proof.
  induction fuel as [|f IH]; intros old new s H; [reflexivity|].
  destruct s as [|c s']; [reflexivity|].
  cbn [py_contains] in H. apply orb_false_iff in H as [H1 H2].
  cbn [py_replace_fuel]. rewrite H1, IH by exact H2. reflexivity.
Qed.

Lemma replace_fuel_hit (fuel : nat) (old new rest : string) : old <> EmptyString ->
  py_replace_fuel (S fuel) old new (old ++ rest) =
  (new ++ py_replace_fuel fuel old new rest)%string.
Proof.
  intros Hold.
  assert (Hp : String.prefix old (old ++ rest) = true) by apply prefix_app.
  assert (Hs : substring (String.length old)
                 (String.length (old ++ rest) - String.length old) (old ++ rest) = rest).
  { rewrite AlertTextFacts.length_app.
    replace (String.length old + String.length rest - String.length old)%nat
      with (String.length rest) by lia.
    rewrite <- (Nat.add_0_r (String.length old)) at 1.
    rewrite AlertTextFacts.substring_app_shift.
    apply AlertTextFacts.substring_whole. lia. }
  destruct old as [|c o']; [contradiction|].
  change ((String c o' ++ rest)%string) with (String c (o' ++ rest)) in *.
  cbn [py_replace_fuel]. rewrite Hp, Hs. reflexivity.
Qed.

(** A prefix free of ["h"] that appears at the start of the rewritten
    text was already at the start of the original. *)
Fixpoint avoids (x : ascii) (p : string) : bool :=
  match p with
  | EmptyString => true
  | String y p' => negb (Ascii.eqb x y) && avoids x p'
  end.

Lemma prefix_replaced (p : string) : avoids "h" p = true ->
  forall fuel s,
  String.prefix p (py_replace_fuel fuel "wss://" "https://" s) = true ->
  String.prefix p s = true.
Proof.
  induction p as [|x p IH]; intros Hp fuel s H; [destruct s; reflexivity|].
  cbn [avoids] in Hp. apply andb_prop in Hp as [Hx Hp].
  destruct fuel as [|f]; [exact H|]. destruct s as [|c s']; [exact H|].
  cbn [py_replace_fuel] in H.
  destruct (String.prefix "wss://" (String c s')) eqn:E.
  - simpl in H. destruct (ascii_dec x "h") as [->|]; [discriminate Hx | discriminate H].
  - simpl in H. simpl. destruct (ascii_dec x c); [|discriminate H].
    exact (IH Hp f s' H).
Qed.

Lemma replace_leaves_none (fuel : nat) : forall s,
  (String.length s <= fuel)%nat ->
  py_contains "wss://" (py_replace_fuel fuel "wss://" "https://" s) = false.
Proof.
  induction fuel as [|f IH]; intros s Hs.
  - destruct s as [|c s']; [reflexivity | simpl in Hs; lia].
  - destruct s as [|c s']; [reflexivity|].
    destruct (String.prefix "wss://" (String c s')) eqn:E.
    + cbn [py_replace_fuel]. rewrite E. simpl. apply IH.
      pose proof (substring_length_le 5 (String.length s' - 5) s').
      simpl in Hs. lia.
    + cbn [py_replace_fuel]. rewrite E. cbn [py_contains].
      apply orb_false_iff. split.
      * destruct (String.prefix "wss://" (String c (py_replace_fuel f "wss://" "https://" s')))
          eqn:E3; [|reflexivity].
        exfalso.
        assert (E4 : String.prefix "wss://"
                       (py_replace_fuel (S f) "wss://" "https://" (String c s')) = true)
          by (cbn [py_replace_fuel]; rewrite E; exact E3).
        apply (prefix_replaced "wss://" eq_refl) in E4. congruence.
      * apply IH. simpl in Hs. lia.
Qed.

(** A [wss://] endpoint becomes the same endpoint over [https://]. *)
Theorem http_url_scheme (rest : string) (H : py_contains "wss://" rest = false) :
  http_url ("wss://" ++ rest) = ("https://" ++ rest)%string.
Proof.
  unfold http_url, py_replace. rewrite AlertTextFacts.length_app.
  change (String.length "wss://" + String.length rest)%nat
    with (S (5 + String.length rest)).
  rewrite replace_fuel_hit by discriminate.
  rewrite replace_fuel_absent by exact H. reflexivity.
Qed.

Lemma http_url_scheme_witness :
  py_contains "wss://"%string "abc.bsc.quiknode.pro/key/"%string = false /\
  http_url "wss://abc.bsc.quiknode.pro/key/"%string = "https://abc.bsc.quiknode.pro/key/"%string.
Proof.
  split; [reflexivity|].
  exact (http_url_scheme "abc.bsc.quiknode.pro/key/"%string eq_refl).
Defined.

(** A URL without [wss://] is used unchanged: an [https://] URL stays
    as it is, and so does a [ws://] URL, which is not turned into HTTP. *)
Theorem http_url_unchanged (url : string) (H : py_contains "wss://"%string url = false) :
  http_url url = url.
Proof. unfold http_url, py_replace. apply replace_fuel_absent. exact H. Qed.

Lemma http_url_unchanged_witness :
  py_contains "wss://"%string "ws://abc.bsc.quiknode.pro/key/"%string = false /\
  http_url "ws://abc.bsc.quiknode.pro/key/"%string = "ws://abc.bsc.quiknode.pro/key/"%string.
Proof.
  split; [reflexivity|].
  exact (http_url_unchanged "ws://abc.bsc.quiknode.pro/key/"%string eq_refl).
Defined.

(** Every occurrence of [wss://] is rewritten, wherever it stands, and
    the result contains none. *)
Theorem http_url_no_wss_left (url : string) :
  py_contains "wss://" (http_url url) = false.
Proof. unfold http_url, py_replace. apply replace_leaves_none. lia. Qed.

End UrlFacts.
